(** * The subclass example of autocxx: messages.h / messages.cc

    A shallow embedding of [examples/subclass/src/messages.{h,cc}]: two
    process-wide registries of message producers and message displayers,
    the native (C++) implementation of each, and the demo driver that
    calls every displayer for every producer.

    The C++ code is stateful (global vectors, [std::cout], the free store,
    the wall clock), so it is embedded as computations in a state monad
    whose failure case stands for undefined behaviour. *)

From Stdlib Require Import ZArith NArith Ascii String List Lia.
From Stdlib Require Import SpecFloat DecimalString DecimalN DecimalPos.
From stdpp Require Import list strings.

Set Default Proof Using "Type".

(** ** Text *)

(** The line terminator written by [std::endl]. *)
Definition newline : string := String "010" "".

(** [n] line terminators in a row. *)
Fixpoint newlines (n : nat) : string :=
  match n with
  | O => ""
  | S n' => newline +:+ newlines n'
  end.

(** [operator<<] for [std::time_t] (a signed integer): decimal digits, with a
    leading minus sign for negative values. *)
Definition print_time_t (t : Z) : string :=
  NilZero.string_of_int (Z.to_int t).

(** ** The services of the C and C++ run-time library

    [std::asctime (std::localtime (&t))] and [operator<<] for [float] are
    library code, not part of the example; the model takes them as given.
    [asctime_localtime t] is [None] when the library has no calendar time
    for [t] and hands back a null pointer. [foreign_state] is the state
    owned by the implementations written in the other language (the Rust
    subclasses), which the C++ side never inspects. *)
Class Platform := {
  foreign_state : Type;
  asctime_localtime : Z -> option string;
  print_float : spec_float -> string
}.

(** [std::ostringstream]: the text collected so far, and whether the stream
    has failed. A failed stream ignores every later insertion. *)
Record ostringstream := {
  str : string;
  failed : bool
}.

Definition ostringstream_new : ostringstream := {| str := ""; failed := false |}.

(** [st << text] for a [std::string], a string literal or a number already
    turned into digits. *)
Definition stream_put (text : string) (st : ostringstream) : ostringstream :=
  if failed st then st
  else {| str := str st +:+ text; failed := false |}.

(** [st << p] for a [const char*] that may be null: a null pointer puts the
    stream into the failed state. *)
Definition stream_put_cstr (p : option string) (st : ostringstream) : ostringstream :=
  match p with
  | Some text => stream_put text st
  | None => {| str := str st; failed := true |}
  end.

(** The [float] nearest to the literal [101.0] (exactly 101): binary32 has a
    24-bit significand, 101 * 2^17 * 2^-17. *)
Definition float_101 : spec_float := S754_finite false 13238272 (-17).

(** ** The free store *)

Definition addr := nat.

(** An object created by [new T[n]]: an array of [float*] or of [float].
    A cell is [None] while its value is indeterminate (or, for a pointer,
    null): using such a value is undefined. *)
Inductive block :=
| PtrArray (cells : list (option addr))
| FloatArray (cells : list (option spec_float)).

(** Nothing is ever deleted by this program, so the free store is the list of
    all allocations; an address is the position of its block. *)
Definition Heap := list block.

(** ** messages.h: the data record

    [foo] is the [int], [bar] the [char*]. [data] is the member messages.cc
    assigns to and reads from as a [float**]; its declaration is commented
    out in messages.h. A field is [None] while indeterminate. *)
Record MyPod := {
  foo : option Z;
  bar : option addr;
  data : option addr
}.

(** [MyPod pod;] default-initialisation leaves every member indeterminate. *)
Definition MyPod_default : MyPod :=
  {| foo := None; bar := None; data := None |}.

Definition set_foo (pod : MyPod) (v : Z) : MyPod :=
  {| foo := Some v; bar := bar pod; data := data pod |}.

Definition set_data (pod : MyPod) (a : addr) : MyPod :=
  {| foo := foo pod; bar := bar pod; data := Some a |}.

(** ** The environment of the virtual methods *)

(** [clock k] is what the [k]-th call of [std::time] returns; [ticks] counts
    the calls made so far. *)
Record Env `{Platform} := {
  clock : nat -> Z;
  ticks : nat;
  ext : foreign_state
}.

(** ** messages.h: the two abstract classes and their implementations *)

(** Modelled from the spec: the producers implemented in the other language,
    which subclass [MessageProducer] outside messages.cc. A producer
    "produces a text message with no required input": the method is [const],
    returns a string, and may read and change the environment (the clock,
    the state of the foreign side). It is taken to return normally. *)
Record ForeignProducer `{Platform} := {
  fp_get_message : Env -> string * Env
}.

(** Modelled from the spec: the displayers implemented in the other
    language, which subclass [MessageDisplayer] outside messages.cc. A
    displayer "consumes a text message and a data record, producing only a
    side effect (output)": each method returns the text it prints; through
    the [MyPod&] the second one may also change the record and the store.
    Both are taken to return normally. *)
Record ForeignDisplayer `{Platform} := {
  fd_display_message : string -> Env -> string * Env;
  fd_do_something_pod : MyPod -> Heap -> Env -> string * MyPod * Heap * Env
}.

(** An object behind a [MessageProducer&] or [MessageDisplayer&] is the
    native implementation or a foreign one; a virtual call dispatches on
    which. *)
Inductive MessageProducer `{Platform} :=
| CppExampleProducer
| ForeignMessageProducer (impl : ForeignProducer).

Inductive MessageDisplayer `{Platform} :=
| CppExampleDisplayer
| ForeignMessageDisplayer (impl : ForeignDisplayer).

(** The history of virtual calls, kept as ghost state: which object was
    called and with which argument; for [get_message] the result, for
    [do_something_pod] also the store the callee finds. *)
Inductive call `{Platform} :=
| call_get_message (p : MessageProducer) (ret : string)
| call_display_message (d : MessageDisplayer) (msg : string)
| call_do_something_pod (d : MessageDisplayer) (pod : MyPod) (store : Heap).

(** ** The state of the process *)
Record State `{Platform} := {
  producers : list MessageProducer;
  displayers : list MessageDisplayer;
  cout : string;
  heap : Heap;
  env : Env;
  calls : list call
}.

(** ** The monad: state passing, [None] for undefined behaviour *)
Definition M `{Platform} (A : Type) : Type := State -> option (A * State).

Definition ret `{Platform} {A} (a : A) : M A := fun s => Some (a, s).

Definition bind `{Platform} {A B} (c : M A) (k : A -> M B) : M B :=
  fun s => match c s with
           | Some (a, s') => k a s'
           | None => None
           end.

Declare Scope demo_scope.
Delimit Scope demo_scope with demo.
Notation "'do' x <- c ; k" := (bind c (fun x => k))
  (at level 10, x name, c at level 100, k at level 200) : demo_scope.
Notation "'run' c ; k" := (bind c (fun _ => k))
  (at level 10, c at level 100, k at level 200) : demo_scope.
Local Open Scope demo_scope.

Section Primitives.
Context `{Platform}.

Definition gets {A} (f : State -> A) : M A := fun s => Some (f s, s).

Definition with_producers (s : State) (ps : list MessageProducer) : State :=
  {| producers := ps; displayers := displayers s; cout := cout s;
     heap := heap s; env := env s; calls := calls s |}.

Definition with_displayers (s : State) (ds : list MessageDisplayer) : State :=
  {| producers := producers s; displayers := ds; cout := cout s;
     heap := heap s; env := env s; calls := calls s |}.

Definition with_cout (s : State) (o : string) : State :=
  {| producers := producers s; displayers := displayers s; cout := o;
     heap := heap s; env := env s; calls := calls s |}.

Definition with_heap (s : State) (h : Heap) : State :=
  {| producers := producers s; displayers := displayers s; cout := cout s;
     heap := h; env := env s; calls := calls s |}.

Definition with_env (s : State) (e : Env) : State :=
  {| producers := producers s; displayers := displayers s; cout := cout s;
     heap := heap s; env := e; calls := calls s |}.

Definition with_calls (s : State) (cs : list call) : State :=
  {| producers := producers s; displayers := displayers s; cout := cout s;
     heap := heap s; env := env s; calls := cs |}.

(** [std::cout << text] *)
Definition cout_put (text : string) : M unit :=
  fun s => Some (tt, with_cout s (cout s +:+ text)).

(** [std::cout << std::endl] *)
Definition cout_endl : M unit := cout_put newline.

(** [std::time(nullptr)]: the next reading of the clock. *)
Definition std_time (e : Env) : Z * Env :=
  (clock e (ticks e), {| clock := clock e; ticks := S (ticks e); ext := ext e |}).

(** [new float*[n]] and [new float[n]]: a fresh block of indeterminate
    cells. *)
Definition new_ptr_array (n : nat) : M addr :=
  fun s => Some (length (heap s),
                 with_heap s (heap s ++ [PtrArray (replicate n None)])).

Definition new_float_array (n : nat) : M addr :=
  fun s => Some (length (heap s),
                 with_heap s (heap s ++ [FloatArray (replicate n None)])).

(** [p[i]] for a [float**]; undefined when [p] is no valid address of an
    array of pointers or [i] is out of range. *)
Definition load_ptr (p : option addr) (i : nat) : M (option addr) :=
  fun s =>
    match p with
    | Some a =>
        match heap s !! a with
        | Some (PtrArray cells) =>
            match cells !! i with
            | Some q => Some (q, s)
            | None => None
            end
        | _ => None
        end
    | None => None
    end.

(** [p[i]] for a [float*]; the cell must hold a value. *)
Definition load_float (p : option addr) (i : nat) : M spec_float :=
  fun s =>
    match p with
    | Some a =>
        match heap s !! a with
        | Some (FloatArray cells) =>
            match cells !! i with
            | Some (Some v) => Some (v, s)
            | _ => None
            end
        | _ => None
        end
    | None => None
    end.

(** [p[i] = q] for a [float**] *)
Definition store_ptr (p : option addr) (i : nat) (q : addr) : M unit :=
  fun s =>
    match p with
    | Some a =>
        match heap s !! a with
        | Some (PtrArray cells) =>
            if i <? length cells
            then Some (tt, with_heap s (<[a := PtrArray (<[i := Some q]> cells)]> (heap s)))
            else None
        | _ => None
        end
    | None => None
    end.

(** [p[i] = v] for a [float*] *)
Definition store_float (p : option addr) (i : nat) (v : spec_float) : M unit :=
  fun s =>
    match p with
    | Some a =>
        match heap s !! a with
        | Some (FloatArray cells) =>
            if i <? length cells
            then Some (tt, with_heap s (<[a := FloatArray (<[i := Some v]> cells)]> (heap s)))
            else None
        | _ => None
        end
    | None => None
    end.

(** Ghost code: a virtual call enters the history. *)
Definition record_call (c : call) : M unit :=
  fun s => Some (tt, with_calls s (calls s ++ [c])).

(** A range-based [for] over a vector. *)
Fixpoint for_each {A} (l : list A) (body : A -> M unit) : M unit :=
  match l with
  | [] => ret tt
  | x :: l' => run body x; for_each l' body
  end.
End Primitives.

(** ** messages.cc *)
Section Messages.
Context `{Platform}.

(** [CppExampleProducer::get_message]: the calendar time as text, the same
    instant as a count of seconds, and a fixed suffix, inserted into a string
    stream whose text is returned. The method is [const] and only consults
    the clock; no result of a library call is checked. *)
Definition CppExampleProducer_get_message (e : Env) : string * Env :=
  let '(result, e') := std_time e in
  let st := ostringstream_new in
  let st := stream_put_cstr (asctime_localtime result) st in
  let st := stream_put (print_time_t result) st in
  let st := stream_put " seconds since the Epoch" st in
  (str st, e').

(** [CppExampleDisplayer::display_message] *)
Definition CppExampleDisplayer_display_message (msg : string) : M unit :=
  run cout_put "Message: ";
  run cout_put msg;
  cout_endl.

(** [CppExampleDisplayer::do_something_pod]: the record comes by reference,
    so the method hands back the record as it leaves it. *)
Definition CppExampleDisplayer_do_something_pod (pod : MyPod) : M MyPod :=
  do row <- load_ptr (data pod) 0;
  do v <- load_float row 0;
  run cout_put "From C++: ";
  run cout_put (print_float v);
  run cout_endl;
  ret pod.

(** Virtual dispatch: [producer.get().get_message()]. *)
Definition get_message (p : MessageProducer) : M string :=
  do msg <-
    (fun s =>
       let '(msg, e) :=
         match p with
         | CppExampleProducer => CppExampleProducer_get_message (env s)
         | ForeignMessageProducer impl => fp_get_message impl (env s)
         end in
       Some (msg, with_env s e));
  run record_call (call_get_message p msg);
  ret msg.

(** Virtual dispatch: [displayer.get().display_message(msg)]. *)
Definition display_message (d : MessageDisplayer) (msg : string) : M unit :=
  run record_call (call_display_message d msg);
  match d with
  | CppExampleDisplayer => CppExampleDisplayer_display_message msg
  | ForeignMessageDisplayer impl =>
      fun s =>
        let '(out, e) := fd_display_message impl msg (env s) in
        Some (tt, with_env (with_cout s (cout s +:+ out)) e)
  end.

(** Virtual dispatch: [displayer.get().do_something_pod(pod)]. *)
Definition do_something_pod (d : MessageDisplayer) (pod : MyPod) : M MyPod :=
  do h <- gets heap;
  run record_call (call_do_something_pod d pod h);
  match d with
  | CppExampleDisplayer => CppExampleDisplayer_do_something_pod pod
  | ForeignMessageDisplayer impl =>
      fun s =>
        let '(out, pod', h, e) := fd_do_something_pod impl pod (heap s) (env s) in
        Some (pod', with_env (with_heap (with_cout s (cout s +:+ out)) h) e)
  end.

(** The two global objects. *)
Definition cpp_producer : MessageProducer := CppExampleProducer.
Definition cpp_displayer : MessageDisplayer := CppExampleDisplayer.

(** [displayers.push_back(displayer)] *)
Definition register_displayer (displayer : MessageDisplayer) : M unit :=
  fun s => Some (tt, with_displayers s (displayers s ++ [displayer])).

(** [producers.push_back(producer)] *)
Definition register_producer (producer : MessageProducer) : M unit :=
  fun s => Some (tt, with_producers s (producers s ++ [producer])).

Definition register_cpp_thingies : M unit :=
  run register_producer cpp_producer;
  register_displayer cpp_displayer.

Definition run_demo : M unit :=
  do ps <- gets producers;
  for_each ps (fun producer =>
    do msg <- get_message producer;
    do ds <- gets displayers;
    run for_each ds (fun displayer =>
      run display_message displayer msg;
      let pod := MyPod_default in
      let pod := set_foo pod 1 in
      do a <- new_ptr_array 1;
      let pod := set_data pod a in
      do b <- new_float_array 1;
      run store_ptr (data pod) 0 b;
      do row <- load_ptr (data pod) 0;
      run store_float row 0 float_101;
      run do_something_pod displayer pod;
      cout_endl);
    cout_endl).

(** Lines 69 to 73 of messages.cc on their own: the statements of [run_demo]
    that build the record for one displayer call. *)
Definition make_pod : M MyPod :=
  let pod := MyPod_default in
  let pod := set_foo pod 1 in
  do a <- new_ptr_array 1;
  let pod := set_data pod a in
  do b <- new_float_array 1;
  run store_ptr (data pod) 0 b;
  do row <- load_ptr (data pod) 0;
  run store_float row 0 float_101;
  ret pod.

(** The state a computation leaves behind ([s] itself when undefined). *)
Definition exec {A} (c : M A) (s : State) : State :=
  match c s with
  | Some (_, s') => s'
  | None => s
  end.

(** messages.h: the four functions a client can call, and a client as the
    sequence of its calls. *)
Inductive operation :=
| op_register_cpp_thingies
| op_register_producer (producer : MessageProducer)
| op_register_displayer (displayer : MessageDisplayer)
| op_run_demo.

Definition perform (o : operation) : M unit :=
  match o with
  | op_register_cpp_thingies => register_cpp_thingies
  | op_register_producer producer => register_producer producer
  | op_register_displayer displayer => register_displayer displayer
  | op_run_demo => run_demo
  end.

(** The state right after the statements of [make_pod] have run in a store
    [h]: the record, and the two blocks added to the store. *)
Definition demo_pod (h : Heap) : MyPod :=
  {| foo := Some 1%Z; bar := None; data := Some (length h) |}.

Definition demo_blocks (h : Heap) : list block :=
  [PtrArray [Some (S (length h))]; FloatArray [Some float_101]].

(** The state at program start: empty registries, nothing printed, nothing
    allocated. *)
Definition initial_state (e : Env) : State :=
  {| producers := []; displayers := []; cout := ""; heap := [];
     env := e; calls := [] |}.
End Messages.

(** ** Vocabulary of the specification *)

(** [needle] occurs in [text]. *)
Definition occurs_in (needle text : string) : Prop :=
  exists before after, text = before +:+ needle +:+ after.

Definition is_digit (c : ascii) : bool :=
  match Ascii.is_nat c with
  | Some _ => true
  | None => false
  end.

Fixpoint all_digits (s : string) : bool :=
  match s with
  | "" => true
  | String c s' => is_digit c && all_digits s'
  end.

(** Reading a non-empty run of decimal digits as a non-negative integer;
    anything else is rejected. *)
Definition parse_nonneg (s : string) : option N :=
  match s with
  | "" => None
  | _ => if all_digits s
         then option_map N.of_uint (NilEmpty.uint_of_string s)
         else None
  end.

(** What the specification asks of the native message for the clock reading
    [t]: it contains the fixed suffix, and it contains the count of seconds
    as printed, which reads as a non-negative integer. *)
Definition message_as_claimed (t : Z) (msg : string) : Prop :=
  occurs_in "seconds since the Epoch" msg /\
  occurs_in (print_time_t t) msg /\
  exists n : N, parse_nonneg (print_time_t t) = Some n.

(** A text without a line terminator in it. *)
Definition one_line (s : string) : bool :=
  forallb (fun c => negb (Ascii.eqb c "010")) (list_ascii_of_string s).

(** The lines of a text: each line terminator ends a line, and text after the
    last terminator is a line of its own. *)
Fixpoint lines (s : string) : list string :=
  match s with
  | "" => []
  | String c s' =>
      if Ascii.eqb c "010" then "" :: lines s'
      else match lines s' with
           | [] => [String c ""]
           | l :: ls => String c l :: ls
           end
  end.

(** What the specification says [run_demo] calls, for displayers [ds]: per
    producer one [get_message], then per displayer [display_message] with
    that message followed by [do_something_pod] with some record. *)
Inductive displayer_calls `{Platform} (msg : string) :
  list MessageDisplayer -> list call -> Prop :=
| displayer_calls_nil : displayer_calls msg [] []
| displayer_calls_cons d ds pod store rest :
    displayer_calls msg ds rest ->
    displayer_calls msg (d :: ds)
      (call_display_message d msg :: call_do_something_pod d pod store :: rest).

Inductive demo_calls `{Platform} (ds : list MessageDisplayer) :
  list MessageProducer -> list call -> Prop :=
| demo_calls_nil : demo_calls ds [] []
| demo_calls_cons p ps msg inner rest :
    displayer_calls msg ds inner ->
    demo_calls ds ps rest ->
    demo_calls ds (p :: ps) (call_get_message p msg :: inner ++ rest).

(** The argument of a [do_something_pod] call as [run_demo] builds it: [foo]
    is 1, [bar] was never assigned, and [data] is the address of a one-row
    array whose row is a one-column array of floats holding 101. *)
Definition pod_call_ok `{Platform} (c : call) : Prop :=
  match c with
  | call_do_something_pod _ pod store =>
      foo pod = Some 1%Z /\ bar pod = None /\
      exists a b,
        data pod = Some a /\
        store !! a = Some (PtrArray [Some b]) /\
        store !! b = Some (FloatArray [Some float_101])
  | _ => True
  end.

(** ** Fixtures: a concrete platform and concrete states *)
Module Fixture.

(** A [float] printer that knows the values the fixtures use. *)
Definition fixture_print_float (f : spec_float) : string :=
  match f with
  | S754_finite false 13238272 (-17) => "101"
  | S754_zero false => "0"
  | _ => "?"
  end.

(** Every reading of the clock is the Epoch, whose calendar text in UTC is
    fixed; the foreign side keeps a counter. *)
Definition platform : Platform := {|
  foreign_state := nat;
  asctime_localtime := fun _ => Some ("Thu Jan  1 00:00:00 1970" +:+ newline);
  print_float := fixture_print_float
|}.

#[local] Existing Instance platform.

Definition start : State :=
  initial_state {| clock := fun _ => 0%Z; ticks := 0; ext := 0 |}.

(** A foreign producer with a fixed one-line message. *)
Definition quote_producer : MessageProducer :=
  ForeignMessageProducer
    {| fp_get_message := fun e => ("All that glitters is not gold", e) |}.

(** A foreign displayer that prints the message in brackets and overwrites
    the record it is handed. *)
Definition bracket_displayer : MessageDisplayer :=
  ForeignMessageDisplayer {|
    fd_display_message := fun msg e => ("[" +:+ msg +:+ "]" +:+ newline, e);
    fd_do_something_pod := fun pod h e => ("", set_foo pod 7, h, e)
  |}.

(** [register_cpp_thingies] and one more registration of the native
    displayer: one producer, two displayers, all native. *)
Definition one_producer_two_displayers : State :=
  exec (register_displayer cpp_displayer) (exec register_cpp_thingies start).

(** One foreign producer and the native displayer twice. *)
Definition quote_two_displayers : State :=
  exec (register_displayer cpp_displayer)
    (exec (register_displayer cpp_displayer)
       (exec (register_producer quote_producer) start)).

(** Both kinds of producer and both kinds of displayer. *)
Definition mixed : State :=
  exec (register_displayer bracket_displayer)
    (exec (register_producer quote_producer)
       (exec register_cpp_thingies start)).

(** Displayers but no producer. *)
Definition no_producer : State :=
  exec (register_displayer bracket_displayer)
    (exec (register_displayer cpp_displayer) start).

(** Producers but no displayer. *)
Definition no_displayer : State :=
  exec (register_producer quote_producer)
    (exec (register_producer cpp_producer) start).

(** A state whose store holds a 1x1 buffer, and the record that owns it. *)
Definition with_buffer : State := exec make_pod start.
Definition buffer_pod : MyPod := demo_pod [].

End Fixture.

(** Platforms on which a library call of the native producer fails. *)
Module Failure.

(** [std::time] fails: every reading is -1, which as a calendar time is the
    last second before the Epoch. *)
Definition platform_time_failed : Platform := {|
  foreign_state := unit;
  asctime_localtime := fun _ => Some ("Wed Dec 31 23:59:59 1969" +:+ newline);
  print_float := Fixture.fixture_print_float
|}.

Definition env_time_failed : @Env platform_time_failed :=
  @Build_Env platform_time_failed (fun _ => (-1)%Z) 0 tt.

(** [std::localtime] fails: the reading is so far ahead that its year does
    not fit, and there is no calendar text. *)
Definition platform_no_calendar : Platform := {|
  foreign_state := unit;
  asctime_localtime := fun _ => None;
  print_float := Fixture.fixture_print_float
|}.

Definition env_no_calendar : @Env platform_no_calendar :=
  @Build_Env platform_no_calendar (fun _ => (2 ^ 62)%Z) 0 tt.

End Failure.

(** ** Vocabulary for whole runs *)
Section Runs_vocabulary.
Context `{Platform}.

(** What [get_message] does to the environment, whichever the producer. *)
Definition producer_message (p : MessageProducer) (e : Env) : string * Env :=
  match p with
  | CppExampleProducer => CppExampleProducer_get_message e
  | ForeignMessageProducer impl => fp_get_message impl e
  end.

(** The messages the producers return when asked one after the other, and
    the environment they leave. *)
Fixpoint messages_of (ps : list MessageProducer) (e : Env) : list string * Env :=
  match ps with
  | [] => ([], e)
  | p :: ps' =>
      let '(m, e1) := producer_message p e in
      let '(ms, e2) := messages_of ps' e1 in
      (m :: ms, e2)
  end.

(** The message of the native producer for the clock reading [t]: empty
    when there is no calendar text for [t]. *)
Definition native_message (t : Z) : string :=
  match asctime_localtime t with
  | Some text => text +:+ print_time_t t +:+ " seconds since the Epoch"
  | None => ""
  end.

(** What is printed for one message and one native displayer: the two lines
    of the displayer and the line terminator of the driver. *)
Definition native_block (msg : string) : string :=
  "Message: " +:+ msg +:+ newline
  +:+ "From C++: " +:+ print_float float_101 +:+ newline
  +:+ newline.

Fixpoint repeat_text (k : nat) (t : string) : string :=
  match k with
  | O => ""
  | S k' => t +:+ repeat_text k' t
  end.

(** The output of a run with [k] native displayers, given the messages. *)
Fixpoint native_demo_output (k : nat) (msgs : list string) : string :=
  match msgs with
  | [] => ""
  | m :: rest =>
      repeat_text k (native_block m) +:+ newline +:+ native_demo_output k rest
  end.

(** The blocks [count] displayer calls leave in a store that had [base]
    blocks: per call a row array pointing at the float array after it. *)
Fixpoint leaked_blocks (base count : nat) : list block :=
  match count with
  | O => []
  | S c =>
      PtrArray [Some (S base)] :: FloatArray [Some float_101]
      :: leaked_blocks (S (S base)) c
  end.

(** The driver's own line terminators around the texts of the displayers:
    one after each displayer, one more after each producer. *)
Definition frame_row (texts : list string) : string :=
  foldr (fun t acc => t +:+ newline +:+ acc) newline texts.

Definition frame_rows (rows : list (list string)) : string :=
  foldr (fun row acc => frame_row row +:+ acc) "" rows.

(** What one displayer prints in one turn of the inner loop, for the message
    [msg], and the store and environment it leaves: the native one prints its
    two lines and keeps the two arrays of the record; a foreign one prints
    what its two methods return, the second of which is handed the freshly
    built record. *)
Definition displayer_text (d : MessageDisplayer) (msg : string)
    (h : Heap) (e : Env) : string * Heap * Env :=
  match d with
  | CppExampleDisplayer =>
      ("Message: " +:+ msg +:+ newline
       +:+ "From C++: " +:+ print_float float_101 +:+ newline,
       h ++ demo_blocks h, e)
  | ForeignMessageDisplayer impl =>
      let '(out, e1) := fd_display_message impl msg e in
      let '(out', _, h', e') :=
        fd_do_something_pod impl (demo_pod h) (h ++ demo_blocks h) e1 in
      (out +:+ out', h', e')
  end.

(** The texts of the displayers for one message, in registration order. *)
Fixpoint row_texts (msg : string) (ds : list MessageDisplayer)
    (h : Heap) (e : Env) : list string * Heap * Env :=
  match ds with
  | [] => ([], h, e)
  | d :: ds' =>
      let '(text, h1, e1) := displayer_text d msg h e in
      let '(row, h2, e2) := row_texts msg ds' h1 e1 in
      (text :: row, h2, e2)
  end.

(** The texts of a whole run: one row per producer, for its message. *)
Fixpoint demo_texts (ps : list MessageProducer) (ds : list MessageDisplayer)
    (h : Heap) (e : Env) : list (list string) * Heap * Env :=
  match ps with
  | [] => ([], h, e)
  | p :: ps' =>
      let '(msg, e1) := producer_message p e in
      let '(row, h1, e2) := row_texts msg ds h e1 in
      let '(rows, h2, e3) := demo_texts ps' ds h1 e2 in
      (row :: rows, h2, e3)
  end.

(** What a sequence of client calls registers, in call order. *)
Definition registered_producers (ops : list operation) : list MessageProducer :=
  flat_map (fun o => match o with
                     | op_register_cpp_thingies => [cpp_producer]
                     | op_register_producer p => [p]
                     | _ => []
                     end) ops.

Definition registered_displayers (ops : list operation) : list MessageDisplayer :=
  flat_map (fun o => match o with
                     | op_register_cpp_thingies => [cpp_displayer]
                     | op_register_displayer d => [d]
                     | _ => []
                     end) ops.

Definition is_registration (o : operation) : bool :=
  match o with
  | op_run_demo => false
  | _ => true
  end.

(** The record's buffer is there: [data] is the address of an array of row
    pointers whose row 0 is the address of an array of floats whose column 0
    holds a value. *)
Definition buffer_cell_00 (store : Heap) (pod : MyPod) : option spec_float :=
  match data pod with
  | Some a =>
      match store !! a with
      | Some (PtrArray (Some b :: _)) =>
          match store !! b with
          | Some (FloatArray (Some v :: _)) => Some v
          | _ => None
          end
      | _ => None
      end
  | None => None
  end.

End Runs_vocabulary.

(** * Properties *)

(** ** Text *)
Section Text.

Lemma append_cons c s t : String c s +:+ t = String c (s +:+ t).
Proof. reflexivity. Qed.

Lemma append_nil_r s : s +:+ "" = s.
Proof.
  induction s as [|c s IH]; [reflexivity|].
  rewrite append_cons, IH. reflexivity.
Qed.

Lemma append_assoc s t u : (s +:+ t) +:+ u = s +:+ t +:+ u.
Proof.
  induction s as [|c s IH]; [reflexivity|].
  rewrite !append_cons, IH. reflexivity.
Qed.

Lemma newlines_snoc n : newlines n +:+ newline = newlines (S n).
Proof.
  induction n as [|n IH]; [reflexivity|].
  change (newlines (S n)) with (newline +:+ newlines n).
  rewrite append_assoc, IH. reflexivity.
Qed.

Lemma lines_newlines n : lines (newlines n) = replicate n "".
Proof.
  induction n as [|n IH]; [reflexivity|].
  change (lines (newlines (S n))) with ("" :: lines (newlines n)).
  rewrite IH. reflexivity.
Qed.

Lemma lines_empty_line (rest : string) :
  lines (newline +:+ rest) = "" :: lines rest.
Proof. reflexivity. Qed.

Lemma lines_cons_line (a rest : string) :
  one_line a = true -> lines (a +:+ newline +:+ rest) = a :: lines rest.
Proof.
  induction a as [|c a IH]; intros Ha.
  - reflexivity.
  - unfold one_line in Ha. cbn in Ha. apply andb_prop in Ha as [Hc Ha].
    rewrite append_cons. cbn [lines].
    destruct (Ascii.eqb c "010"); [discriminate|].
    rewrite IH by exact Ha. reflexivity.
Qed.

Lemma one_line_append (a b : string) :
  one_line a = true -> one_line b = true -> one_line (a +:+ b) = true.
Proof.
  intros Ha Hb. induction a as [|c a IH]; [exact Hb|].
  unfold one_line in *. rewrite append_cons. cbn in *.
  apply andb_prop in Ha as [Hc Ha]. rewrite Hc. cbn. apply IH. exact Ha.
Qed.

End Text.

(** ** The native displayer *)
Section NativeDisplayer.
Context `{Platform}.

(** C5: for every message [msg], the native [display_message] appends to
    standard output exactly "Message: ", then [msg], then a line terminator;
    the rest of the state is as before. *)
Theorem CppExampleDisplayer_display_message_spec (msg : string) (s : State) :
  CppExampleDisplayer_display_message msg s
  = Some (tt, with_cout s (cout s +:+ "Message: " +:+ msg +:+ newline)).
Proof.
  unfold CppExampleDisplayer_display_message, cout_endl, cout_put, bind.
  cbn. rewrite !append_assoc. reflexivity.
Qed.

(** C3: when the record's buffer pointer is the address of an array of row
    pointers with a row 0, and row 0 is the address of an array of floats
    with a column 0 holding [v], the native [do_something_pod] appends to
    standard output exactly "From C++: ", then [v] as printed by
    [operator<<], then a line terminator, and nothing else changes. *)
Theorem CppExampleDisplayer_do_something_pod_prints
    (pod : MyPod) (s : State) (a b : addr)
    (rows : list (option addr)) (cols : list (option spec_float))
    (v : spec_float) :
  data pod = Some a ->
  heap s !! a = Some (PtrArray rows) ->
  rows !! 0 = Some (Some b) ->
  heap s !! b = Some (FloatArray cols) ->
  cols !! 0 = Some (Some v) ->
  CppExampleDisplayer_do_something_pod pod s
  = Some (pod, with_cout s (cout s +:+ "From C++: " +:+ print_float v +:+ newline)).
Proof.
  intros Hdata Ha Hrow Hb Hcol.
  unfold CppExampleDisplayer_do_something_pod, bind, load_ptr, load_float.
  rewrite Hdata, Ha, Hrow, Hb, Hcol.
  unfold cout_endl, cout_put, ret. cbn.
  rewrite !append_assoc. reflexivity.
Qed.

(** C9: whenever the native [do_something_pod] returns, the record it hands
    back is the record it was given (same [foo], [bar] and [data]), and the
    free store, hence every buffer element, is unchanged; so are the
    registries, the environment and the call history. Only standard output
    has grown. *)
Theorem CppExampleDisplayer_do_something_pod_frame
    (pod pod' : MyPod) (s s' : State) :
  CppExampleDisplayer_do_something_pod pod s = Some (pod', s') ->
  pod' = pod /\
  foo pod' = foo pod /\ bar pod' = bar pod /\ data pod' = data pod /\
  heap s' = heap s /\
  (forall a, heap s' !! a = heap s !! a) /\
  producers s' = producers s /\ displayers s' = displayers s /\
  env s' = env s /\ calls s' = calls s /\
  exists out, cout s' = cout s +:+ out.
Proof.
  unfold CppExampleDisplayer_do_something_pod, bind, load_ptr, load_float.
  destruct (data pod) as [a|] eqn:Hdata; [|discriminate].
  destruct (heap s !! a) as [[rows|]|]; try discriminate.
  destruct (rows !! 0) as [row|]; [|discriminate].
  destruct row as [b|]; [|discriminate].
  destruct (heap s !! b) as [[|cols]|]; try discriminate.
  destruct (cols !! 0) as [[v|]|]; try discriminate.
  unfold cout_endl, cout_put, ret. cbn.
  intros [= <- <-]. cbn.
  repeat split; try (reflexivity || assumption).
  eexists. rewrite !append_assoc. reflexivity.
Qed.

End NativeDisplayer.

(** ** The free store *)
Section Store.

Lemma lookup_fresh (h : Heap) (x : block) (l : Heap) :
  (h ++ x :: l) !! length h = Some x.
Proof. apply list_lookup_middle. reflexivity. Qed.

Lemma lookup_fresh_next (h : Heap) (x y : block) (l : Heap) :
  (h ++ x :: y :: l) !! S (length h) = Some y.
Proof.
  change (h ++ x :: y :: l) with (h ++ [x] ++ y :: l).
  rewrite app_assoc. apply list_lookup_middle.
  rewrite length_app. simpl. lia.
Qed.

Lemma insert_fresh (h : Heap) (x x' : block) (l : Heap) :
  <[length h := x']> (h ++ x :: l) = h ++ x' :: l.
Proof.
  rewrite insert_app_r_alt by lia.
  rewrite Nat.sub_diag. reflexivity.
Qed.

Lemma insert_fresh_next (h : Heap) (x y y' : block) (l : Heap) :
  <[S (length h) := y']> (h ++ x :: y :: l) = h ++ x :: y' :: l.
Proof.
  rewrite insert_app_r_alt by lia.
  replace (S (length h) - length h) with 1 by lia. reflexivity.
Qed.

End Store.

(** ** The demo driver *)
Section Driver.
Context `{Platform}.

Lemma make_pod_spec (s : State) :
  make_pod s = Some (demo_pod (heap s), with_heap s (heap s ++ demo_blocks (heap s))).
Proof.
  unfold make_pod, bind, new_ptr_array, new_float_array, store_ptr, load_ptr, store_float, ret.
  cbn. rewrite <- !app_assoc. cbn [app].
  rewrite lookup_fresh. cbn.
  rewrite length_app, Nat.add_1_r, insert_fresh, lookup_fresh. cbn.
  rewrite lookup_fresh_next. cbn.
  rewrite insert_fresh_next. reflexivity.
Qed.

Local Abbreviation displayer_body msg :=
  (fun displayer =>
     run display_message displayer msg;
     let pod := MyPod_default in
     let pod := set_foo pod 1 in
     do a <- new_ptr_array 1;
     let pod := set_data pod a in
     do b <- new_float_array 1;
     run store_ptr (data pod) 0 b;
     do row <- load_ptr (data pod) 0;
     run store_float row 0 float_101;
     run do_something_pod displayer pod;
     cout_endl).

Local Abbreviation producer_body :=
  (fun producer =>
    do msg <- get_message producer;
    do ds <- gets displayers;
    run for_each ds (displayer_body msg);
    cout_endl).

Lemma run_demo_unfold (s : State) :
  run_demo s = for_each (producers s) producer_body s.
Proof. reflexivity. Qed.

(** The loop body builds the record with the statements of [make_pod]. *)
Lemma displayer_body_make_pod (d : MessageDisplayer) (msg : string) (s : State) :
  displayer_body msg d s
  = (run display_message d msg;
     do pod <- make_pod;
     run do_something_pod d pod;
     cout_endl) s.
Proof.
  unfold bind at 1. symmetry. unfold bind at 1.
  destruct (display_message d msg s) as [[[] s1]|]; [|reflexivity].
  unfold make_pod, bind.
  destruct (new_ptr_array 1 s1) as [[a s2]|]; [|reflexivity].
  destruct (new_float_array 1 s2) as [[b s3]|]; [|reflexivity].
  destruct (store_ptr _ 0 b s3) as [[[] s4]|]; [|reflexivity].
  destruct (load_ptr _ 0 s4) as [[row s5]|]; [|reflexivity].
  destruct (store_float row 0 float_101 s5) as [[[] s6]|]; reflexivity.
Qed.

Lemma native_pod_output (s : State) (h : Heap) :
  heap s = h ++ demo_blocks h ->
  CppExampleDisplayer_do_something_pod (demo_pod h) s
  = Some (demo_pod h,
          with_cout s (cout s +:+ "From C++: " +:+ print_float float_101 +:+ newline)).
Proof.
  intros Hh.
  unfold CppExampleDisplayer_do_something_pod, bind, load_ptr, load_float.
  unfold demo_pod, demo_blocks in *. cbn. rewrite Hh, lookup_fresh. cbn.
  rewrite Hh, lookup_fresh_next. cbn.
  rewrite !append_assoc. reflexivity.
Qed.

Lemma displayer_body_native (msg : string) (s : State) :
  exists s',
    displayer_body msg CppExampleDisplayer s = Some (tt, s') /\
    producers s' = producers s /\ displayers s' = displayers s /\
    env s' = env s /\
    heap s' = heap s ++ demo_blocks (heap s) /\
    cout s' = cout s +:+ "Message: " +:+ msg +:+ newline
                     +:+ "From C++: " +:+ print_float float_101 +:+ newline
                     +:+ newline /\
    calls s' = calls s ++ [call_display_message CppExampleDisplayer msg;
                           call_do_something_pod CppExampleDisplayer (demo_pod (heap s))
                             (heap s ++ demo_blocks (heap s))].
Proof.
  eexists. split.
  { rewrite displayer_body_make_pod.
    unfold bind at 1. unfold display_message, record_call, bind at 1.
    unfold CppExampleDisplayer_display_message, cout_endl, cout_put, bind at 1.
    cbn.
    unfold bind at 1. rewrite make_pod_spec.
    unfold bind at 1. unfold do_something_pod, record_call, gets, bind at 1.
    cbn.
    erewrite native_pod_output by reflexivity.
    reflexivity. }
  cbn. rewrite !append_assoc. repeat split; try reflexivity.
  rewrite <- app_assoc. reflexivity.
Qed.

Lemma get_message_run (p : MessageProducer) (s : State) :
  exists msg s',
    get_message p s = Some (msg, s') /\
    producers s' = producers s /\ displayers s' = displayers s /\
    cout s' = cout s /\ heap s' = heap s /\
    calls s' = calls s ++ [call_get_message p msg].
Proof.
  unfold get_message, bind, record_call, ret.
  destruct p as [|impl].
  - destruct (CppExampleProducer_get_message (env s)) as [msg e].
    exists msg. eexists. split; [reflexivity|]. cbn. repeat split.
  - destruct (fp_get_message impl (env s)) as [msg e].
    exists msg. eexists. split; [reflexivity|]. cbn. repeat split.
Qed.

Lemma displayer_body_run (d : MessageDisplayer) (msg : string) (s : State) :
  exists s',
    displayer_body msg d s = Some (tt, s') /\
    producers s' = producers s /\ displayers s' = displayers s /\
    calls s' = calls s ++ [call_display_message d msg;
                           call_do_something_pod d (demo_pod (heap s))
                             (heap s ++ demo_blocks (heap s))].
Proof.
  destruct d as [|impl].
  - destruct (displayer_body_native msg s) as (s' & Hrun & Hp & Hd & _ & _ & _ & Hc).
    exists s'. auto.
  - assert (Hrun : exists out out' h' e',
        displayer_body msg (ForeignMessageDisplayer impl) s
        = Some (tt,
            with_cout
              (with_env
                 (with_heap
                    (with_calls s
                       (calls s
                        ++ [call_display_message (ForeignMessageDisplayer impl) msg;
                            call_do_something_pod (ForeignMessageDisplayer impl)
                              (demo_pod (heap s))
                              (heap s ++ demo_blocks (heap s))]))
                    h') e')
              (((cout s +:+ out) +:+ out') +:+ newline))).
    { destruct (fd_display_message impl msg (env s)) as [out e] eqn:Hdisp.
      destruct (fd_do_something_pod impl (demo_pod (heap s))
                  (heap s ++ demo_blocks (heap s)) e)
        as [[[out' pod'] h'] e'] eqn:Hpod.
      exists out, out', h', e'.
      rewrite displayer_body_make_pod.
      unfold bind at 1. unfold display_message, record_call, bind at 1.
      cbn [env with_calls]. rewrite Hdisp.
      unfold bind at 1. rewrite make_pod_spec.
      unfold bind at 1. unfold do_something_pod, record_call, gets, bind at 1.
      cbn. rewrite Hpod. cbn.
      rewrite <- app_assoc. reflexivity. }
    destruct Hrun as (out & out' & h' & e' & Hrun).
    eexists. split; [exact Hrun|]. repeat split.
Qed.

Lemma displayer_loop_run (msg : string) (ds : list MessageDisplayer) (s : State) :
  exists tr s',
    for_each ds (displayer_body msg) s = Some (tt, s') /\
    producers s' = producers s /\ displayers s' = displayers s /\
    calls s' = calls s ++ tr /\
    displayer_calls msg ds tr /\ Forall pod_call_ok tr.
Proof.
  revert s. induction ds as [|d ds IH]; intros s.
  - exists [], s. cbn. rewrite app_nil_r.
    repeat split; constructor.
  - destruct (displayer_body_run d msg s) as (s1 & Hrun & Hp & Hd & Hc).
    destruct (IH s1) as (tr & s' & Hloop & Hp' & Hd' & Hc' & Htr & Hok).
    exists (call_display_message d msg
            :: call_do_something_pod d (demo_pod (heap s))
                 (heap s ++ demo_blocks (heap s)) :: tr), s'.
    split.
    { cbn [for_each]. unfold bind at 1.
      cbv beta zeta in Hrun |- *. rewrite Hrun. exact Hloop. }
    repeat split; try congruence.
    + rewrite Hc', Hc, <- app_assoc. reflexivity.
    + constructor. exact Htr.
    + constructor; [exact I|]. constructor; [|exact Hok].
      cbn. split; [reflexivity|]. split; [reflexivity|].
      exists (length (heap s)), (S (length (heap s))).
      split; [reflexivity|].
      split; [apply lookup_fresh | apply lookup_fresh_next].
Qed.

Lemma producer_loop_run (ps : list MessageProducer) (s : State) :
  exists tr s',
    for_each ps producer_body s = Some (tt, s') /\
    producers s' = producers s /\ displayers s' = displayers s /\
    calls s' = calls s ++ tr /\
    demo_calls (displayers s) ps tr /\ Forall pod_call_ok tr.
Proof.
  revert s. induction ps as [|p ps IH]; intros s.
  - exists [], s. cbn. rewrite app_nil_r.
    repeat split; constructor.
  - destruct (get_message_run p s) as (msg & s1 & Hget & Hp1 & Hd1 & _ & _ & Hc1).
    destruct (displayer_loop_run msg (displayers s1) s1)
      as (inner & s2 & Hin & Hp2 & Hd2 & Hc2 & Hinner & Hok2).
    destruct (IH (with_cout s2 (cout s2 +:+ newline)))
      as (rest & s' & Hrest & Hp' & Hd' & Hc' & Hdemo & Hok').
    cbn in Hp', Hd', Hc', Hdemo.
    exists (call_get_message p msg :: inner ++ rest), s'.
    split.
    { cbn [for_each]. unfold bind at 1. unfold bind at 1. rewrite Hget.
      unfold bind at 1. unfold gets. unfold bind at 1.
      cbv beta zeta in Hin |- *. rewrite Hin.
      unfold cout_endl, cout_put. exact Hrest. }
    repeat split; try congruence.
    + rewrite Hc', Hc2, Hc1, <- !app_assoc. reflexivity.
    + constructor; [congruence|]. rewrite <- Hd1, <- Hd2. exact Hdemo.
    + constructor; [exact I|]. apply Forall_app. split; assumption.
Qed.
Lemma producer_loop_no_displayer (ps : list MessageProducer) (s : State) :
  displayers s = [] ->
  exists msgs s',
    for_each ps producer_body s = Some (tt, s') /\
    cout s' = cout s +:+ newlines (length ps) /\
    length msgs = length ps /\
    calls s' = calls s ++ zip_with call_get_message ps msgs.
Proof.
  revert s. induction ps as [|p ps IH]; intros s Hds.
  - exists [], s. cbn. rewrite append_nil_r, app_nil_r. repeat split.
  - destruct (get_message_run p s) as (msg & s1 & Hget & _ & Hd1 & Ho1 & _ & Hc1).
    destruct (IH (with_cout s1 (cout s1 +:+ newline)))
      as (msgs & s' & Hrest & Ho' & Hlen & Hc'); [cbn; congruence|].
    cbn in Ho', Hc'.
    exists (msg :: msgs), s'. split.
    { cbn [for_each]. unfold bind at 1. unfold bind at 1. rewrite Hget.
      unfold bind at 1. unfold gets. rewrite Hd1, Hds. cbn [for_each].
      exact Hrest. }
    repeat split.
    + rewrite Ho', Ho1, append_assoc. reflexivity.
    + cbn. congruence.
    + rewrite Hc', Hc1, <- app_assoc. reflexivity.
Qed.

End Driver.

(** ** Counting calls *)
Section Counting.
Context `{Platform}.

Lemma displayer_calls_length (msg : string) (ds : list MessageDisplayer) (tr : list call) :
  displayer_calls msg ds tr -> length tr = 2 * length ds.
Proof.
  induction 1 as [|d ds pod store rest _ IH]; [reflexivity|].
  cbn [length]. rewrite IH. lia.
Qed.

Lemma demo_calls_length (ds : list MessageDisplayer) (ps : list MessageProducer)
    (tr : list call) :
  demo_calls ds ps tr -> length tr = length ps * (1 + 2 * length ds).
Proof.
  induction 1 as [|p ps msg inner rest Hinner _ IH]; [reflexivity|].
  cbn [length]. rewrite length_app, IH, (displayer_calls_length _ _ _ Hinner). lia.
Qed.

End Counting.

(** ** The registries *)
Section Registries.
Context `{Platform}.

Lemma perform_grows (o : operation) (s : State) :
  exists s',
    perform o s = Some (tt, s') /\
    producers s `prefix_of` producers s' /\
    displayers s `prefix_of` displayers s'.
Proof.
  destruct o as [|p|d|]; cbn [perform].
  - eexists. split; [reflexivity|]. cbn. split; apply prefix_app_r; reflexivity.
  - eexists. split; [reflexivity|]. cbn. split; [apply prefix_app_r|]; reflexivity.
  - eexists. split; [reflexivity|]. cbn. split; [|apply prefix_app_r]; reflexivity.
  - rewrite run_demo_unfold.
    destruct (producer_loop_run (producers s) s) as (tr & s' & Hrun & Hp & Hd & _).
    exists s'. rewrite Hp, Hd. auto.
Qed.

Lemma client_grows (ops : list operation) (s : State) :
  exists s',
    for_each ops perform s = Some (tt, s') /\
    producers s `prefix_of` producers s' /\
    displayers s `prefix_of` displayers s'.
Proof.
  revert s. induction ops as [|o ops IH]; intros s.
  - exists s. auto.
  - destruct (perform_grows o s) as (s1 & Hrun & Hp & Hd).
    destruct (IH s1) as (s' & Hrest & Hp' & Hd').
    exists s'. split.
    { cbn [for_each]. unfold bind. rewrite Hrun. exact Hrest. }
    split; etrans; eassumption.
Qed.

(** C7: registration appends and nothing removes. [register_producer] and
    [register_displayer] each put exactly one reference at the end of their
    registry, whatever it already holds, and leave the other registry alone;
    [register_cpp_thingies] appends the built-in producer and the built-in
    displayer; [run_demo] returns with both registries as they were. Hence
    after any sequence of calls of the four functions each registry still
    starts with the entries it had, in the same order. *)
Theorem registries_only_grow (s : State) :
  (forall p, exists s',
      register_producer p s = Some (tt, s') /\
      producers s' = producers s ++ [p] /\ displayers s' = displayers s) /\
  (forall d, exists s',
      register_displayer d s = Some (tt, s') /\
      displayers s' = displayers s ++ [d] /\ producers s' = producers s) /\
  (exists s',
      register_cpp_thingies s = Some (tt, s') /\
      producers s' = producers s ++ [cpp_producer] /\
      displayers s' = displayers s ++ [cpp_displayer]) /\
  (exists s',
      run_demo s = Some (tt, s') /\
      producers s' = producers s /\ displayers s' = displayers s) /\
  (forall ops, exists s',
      for_each ops perform s = Some (tt, s') /\
      producers s `prefix_of` producers s' /\
      displayers s `prefix_of` displayers s').
Proof.
  split; [|split; [|split; [|split]]].
  - intros p. eexists. repeat split.
  - intros d. eexists. repeat split.
  - eexists. repeat split.
  - rewrite run_demo_unfold.
    destruct (producer_loop_run (producers s) s) as (tr & s' & Hrun & Hp & Hd & _).
    exists s'. auto.
  - intros ops. apply client_grows.
Qed.

End Registries.

(** ** The demo driver: claims *)
Section Demo.
Context `{Platform}.



(** C8: with no producer registered, [run_demo] returns at once: nothing is
    printed, and the state is untouched, whatever displayers are registered. *)
Theorem run_demo_no_producer (s : State) :
  producers s = [] ->
  run_demo s = Some (tt, s) /\ cout (exec run_demo s) = cout s.
Proof.
  intros Hps. unfold exec. rewrite run_demo_unfold, Hps. split; reflexivity.
Qed.


(** C2: with one producer registered and the native displayer registered
    twice, [run_demo] returns having appended to standard output, for the
    message [msg] the producer returned: "Message: " [msg], "From C++: " and
    the printed 101, an empty line; the same three once more; and one more
    empty line. The message is written as it is: when it (and the printed
    number) has no line break of its own, these are exactly seven lines. The
    calls are made in the same order. *)
Theorem run_demo_one_producer_two_native (p : MessageProducer) (s : State) :
  producers s = [p] ->
  displayers s = [CppExampleDisplayer; CppExampleDisplayer] ->
  exists msg s',
    run_demo s = Some (tt, s') /\
    let message_line := "Message: " +:+ msg in
    let from_line := "From C++: " +:+ print_float float_101 in
    let out :=
      message_line +:+ newline +:+ from_line +:+ newline +:+ newline
      +:+ message_line +:+ newline +:+ from_line +:+ newline +:+ newline
      +:+ newline in
    cout s' = cout s +:+ out /\
    (one_line msg = true -> one_line (print_float float_101) = true ->
     lines out
     = [message_line; from_line; ""; message_line; from_line; ""; ""]) /\
    exists pod1 store1 pod2 store2,
      calls s' = calls s ++
        [call_get_message p msg;
         call_display_message CppExampleDisplayer msg;
         call_do_something_pod CppExampleDisplayer pod1 store1;
         call_display_message CppExampleDisplayer msg;
         call_do_something_pod CppExampleDisplayer pod2 store2].
Proof.
  intros Hps Hds. rewrite run_demo_unfold, Hps. cbn [for_each].
  destruct (get_message_run p s) as (msg & s1 & Hget & _ & Hd1 & Ho1 & _ & Hc1).
  destruct (displayer_body_native msg s1)
    as (s2 & Hrun2 & _ & _ & _ & _ & Ho2 & Hc2).
  destruct (displayer_body_native msg s2)
    as (s3 & Hrun3 & _ & _ & _ & _ & Ho3 & Hc3).
  exists msg. eexists. split.
  { unfold bind at 1. unfold bind at 1. rewrite Hget.
    unfold bind at 1. unfold gets. rewrite Hd1, Hds. cbn [for_each].
    cbv beta zeta in Hrun2, Hrun3 |- *.
    unfold bind at 1. unfold bind at 1. rewrite Hrun2.
    unfold bind at 1. rewrite Hrun3. reflexivity. }
  cbn. split; [|split].
  - rewrite Ho3, Ho2, Ho1, !append_assoc. reflexivity.
  - intros Hmsg Hnum.
    assert (Hm : one_line ("Message: " +:+ msg) = true)
      by (apply one_line_append; [reflexivity|exact Hmsg]).
    assert (Hf : one_line ("From C++: " +:+ print_float float_101) = true)
      by (apply one_line_append; [reflexivity|exact Hnum]).
    rewrite (lines_cons_line _ _ Hm), (lines_cons_line _ _ Hf).
    rewrite lines_empty_line.
    rewrite (lines_cons_line _ _ Hm), (lines_cons_line _ _ Hf).
    reflexivity.
  - do 4 eexists. rewrite Hc3, Hc2, Hc1, <- !app_assoc. reflexivity.
Qed.

(** C10: with at least one producer and no displayer registered, [run_demo]
    returns having printed one empty line per producer and nothing else (the
    output is not empty, and no line of it is a "Message:" or "From C++:"
    line), and having called [get_message] once on each producer, in
    registration order, and no other method. *)
Theorem run_demo_no_displayer (s : State) :
  producers s <> [] ->
  displayers s = [] ->
  exists msgs s',
    run_demo s = Some (tt, s') /\
    cout s' = cout s +:+ newlines (length (producers s)) /\
    newlines (length (producers s)) <> "" /\
    lines (newlines (length (producers s)))
      = replicate (length (producers s)) "" /\
    length msgs = length (producers s) /\
    calls s' = calls s ++ zip_with call_get_message (producers s) msgs.
Proof.
  intros Hps Hds. rewrite run_demo_unfold.
  destruct (producer_loop_no_displayer (producers s) s Hds)
    as (msgs & s' & Hrun & Ho & Hlen & Hc).
  exists msgs, s'. repeat split; try assumption.
  - destruct (producers s); [congruence|discriminate].
  - apply lines_newlines.
Qed.

End Demo.

(** ** Decimal text *)
Section Decimal.

Lemma all_digits_string_of_uint (d : Decimal.uint) :
  all_digits (NilEmpty.string_of_uint d) = true.
Proof. induction d; cbn; auto. Qed.

Lemma string_of_uint_nonempty (d : Decimal.uint) :
  NilZero.string_of_uint d <> "".
Proof. destruct d; discriminate. Qed.

Lemma all_digits_NilZero (d : Decimal.uint) :
  all_digits (NilZero.string_of_uint d) = true.
Proof.
  destruct d; try apply (all_digits_string_of_uint (_ _)). reflexivity.
Qed.

Lemma parse_string_of_uint (d : Decimal.uint) :
  option_map N.of_uint (NilEmpty.uint_of_string (NilZero.string_of_uint d))
  = Some (N.of_uint d).
Proof.
  destruct d; try (unfold NilZero.string_of_uint; rewrite NilEmpty.usu; reflexivity).
  reflexivity.
Qed.

(** Reading back the digits of a number gives the number. *)
Lemma parse_nonneg_digits (n : N) :
  parse_nonneg (NilZero.string_of_uint (N.to_uint n)) = Some n.
Proof.
  unfold parse_nonneg.
  destruct (NilZero.string_of_uint (N.to_uint n)) as [|c r] eqn:E.
  { exfalso. exact (string_of_uint_nonempty _ E). }
  rewrite <- E, all_digits_NilZero, parse_string_of_uint.
  rewrite DecimalN.Unsigned.of_to. reflexivity.
Qed.

(** A [time_t] prints as its sign and the digits of its magnitude. *)
Lemma print_time_t_sign_digits (t : Z) :
  print_time_t t
  = (if (t <? 0)%Z then "-" else "") +:+ NilZero.string_of_uint (N.to_uint (Z.abs_N t)).
Proof. destruct t; reflexivity. Qed.

End Decimal.

(** ** The native producer *)
Section NativeProducer.
Context `{Platform}.

Lemma CppExampleProducer_get_message_text (e : Env) :
  (CppExampleProducer_get_message e).1
  = match asctime_localtime (clock e (ticks e)) with
    | Some text =>
        text +:+ print_time_t (clock e (ticks e)) +:+ " seconds since the Epoch"
    | None => ""
    end.
Proof.
  unfold CppExampleProducer_get_message, std_time. cbn [fst].
  destruct (asctime_localtime (clock e (ticks e))) as [text|]; [|reflexivity].
  cbn. rewrite !append_assoc. reflexivity.
Qed.

Lemma print_time_t_nonneg (t : Z) :
  (0 <= t)%Z ->
  print_time_t t = NilZero.string_of_uint (N.to_uint (Z.to_N t)).
Proof.
  intros Ht. rewrite print_time_t_sign_digits.
  destruct (Z.ltb_spec t 0) as [Hlt|_]; [lia|].
  destruct t as [|p|p]; try reflexivity. lia.
Qed.

(** C6, amended: when the library has a calendar text for the clock reading
    and the reading is not negative, the message of the native producer is
    that text, then the count of seconds in decimal, then " seconds since the
    Epoch"; so it contains "seconds since the Epoch", and it contains the
    count of seconds as printed, which reads back as that non-negative
    integer. *)
Theorem CppExampleProducer_get_message_contents (e : Env) (text : string) :
  asctime_localtime (clock e (ticks e)) = Some text ->
  (0 <= clock e (ticks e))%Z ->
  (CppExampleProducer_get_message e).1
  = text +:+ print_time_t (clock e (ticks e)) +:+ " seconds since the Epoch" /\
  message_as_claimed (clock e (ticks e)) (CppExampleProducer_get_message e).1 /\
  parse_nonneg (print_time_t (clock e (ticks e)))
  = Some (Z.to_N (clock e (ticks e))).
Proof.
  intros Htext Ht.
  pose proof (CppExampleProducer_get_message_text e) as Hmsg.
  rewrite Htext in Hmsg.
  assert (Hparse : parse_nonneg (print_time_t (clock e (ticks e)))
                   = Some (Z.to_N (clock e (ticks e)))).
  { rewrite (print_time_t_nonneg _ Ht). apply parse_nonneg_digits. }
  split; [exact Hmsg|]. split; [|exact Hparse].
  rewrite Hmsg. split; [|split].
  - exists (text +:+ print_time_t (clock e (ticks e)) +:+ " "), "".
    rewrite append_nil_r, !append_assoc. reflexivity.
  - exists text, " seconds since the Epoch". reflexivity.
  - eexists. exact Hparse.
Qed.

(** X10: the native producer reads the clock exactly once and checks no
    result. With no calendar text for the reading the string stream fails on
    the null pointer and the message is empty, suffix included. Otherwise the
    message is the calendar text, a minus sign if the reading is negative,
    the digits of its magnitude and the suffix. *)
Theorem CppExampleProducer_get_message_cases (e : Env) :
  (CppExampleProducer_get_message e).2
  = {| clock := clock e; ticks := S (ticks e); ext := ext e |} /\
  (CppExampleProducer_get_message e).1
  = match asctime_localtime (clock e (ticks e)) with
    | Some text =>
        text +:+ (if (clock e (ticks e) <? 0)%Z then "-" else "")
        +:+ NilZero.string_of_uint (N.to_uint (Z.abs_N (clock e (ticks e))))
        +:+ " seconds since the Epoch"
    | None => ""
    end /\
  parse_nonneg (NilZero.string_of_uint (N.to_uint (Z.abs_N (clock e (ticks e)))))
  = Some (Z.abs_N (clock e (ticks e))).
Proof.
  split; [reflexivity|]. split; [|apply parse_nonneg_digits].
  rewrite CppExampleProducer_get_message_text.
  destruct (asctime_localtime (clock e (ticks e))) as [text|]; [|reflexivity].
  rewrite print_time_t_sign_digits, !append_assoc. reflexivity.
Qed.

End NativeProducer.

(** ** The model at work: concrete runs *)
Section Runs.
#[local] Existing Instance Fixture.platform.

(** The all-native demo at the Epoch, line by line. The message of the native
    producer spans two lines, because the calendar text ends its own line. *)
Example native_demo_lines :
  lines (cout (exec run_demo Fixture.one_producer_two_displayers))
  = ["Message: Thu Jan  1 00:00:00 1970"; "0 seconds since the Epoch";
     "From C++: 101"; "";
     "Message: Thu Jan  1 00:00:00 1970"; "0 seconds since the Epoch";
     "From C++: 101"; "";
     ""].
Proof. vm_compute. reflexivity. Qed.

(** With a one-line message the output is the seven lines of the layout. *)
Example quote_demo_lines :
  lines (cout (exec run_demo Fixture.quote_two_displayers))
  = ["Message: All that glitters is not gold"; "From C++: 101"; "";
     "Message: All that glitters is not gold"; "From C++: 101"; "";
     ""].
Proof. vm_compute. reflexivity. Qed.

(** Native and foreign objects mixed: producers in the outer loop, displayers
    in the inner one, each in registration order. *)
Example mixed_demo_lines :
  lines (cout (exec run_demo Fixture.mixed))
  = ["Message: Thu Jan  1 00:00:00 1970"; "0 seconds since the Epoch";
     "From C++: 101"; "";
     "[Thu Jan  1 00:00:00 1970"; "0 seconds since the Epoch]"; "";
     "";
     "Message: All that glitters is not gold"; "From C++: 101"; "";
     "[All that glitters is not gold]"; "";
     ""].
Proof. vm_compute. reflexivity. Qed.

Example native_demo_leaks_two_blocks_per_call :
  heap (exec run_demo Fixture.one_producer_two_displayers)
  = [PtrArray [Some 1]; FloatArray [Some float_101];
     PtrArray [Some 3]; FloatArray [Some float_101]].
Proof. vm_compute. reflexivity. Qed.

Lemma run_demo_one_producer_two_native_witness :
  producers Fixture.one_producer_two_displayers = [cpp_producer] /\
  displayers Fixture.one_producer_two_displayers
    = [CppExampleDisplayer; CppExampleDisplayer] /\
  exists msg s',
    run_demo Fixture.one_producer_two_displayers = Some (tt, s') /\
    let message_line := "Message: " +:+ msg in
    let from_line := "From C++: " +:+ print_float float_101 in
    let out :=
      message_line +:+ newline +:+ from_line +:+ newline +:+ newline
      +:+ message_line +:+ newline +:+ from_line +:+ newline +:+ newline
      +:+ newline in
    cout s' = cout Fixture.one_producer_two_displayers +:+ out /\
    (one_line msg = true -> one_line (print_float float_101) = true ->
     lines out
     = [message_line; from_line; ""; message_line; from_line; ""; ""]) /\
    exists pod1 store1 pod2 store2,
      calls s' = calls Fixture.one_producer_two_displayers ++
        [call_get_message cpp_producer msg;
         call_display_message CppExampleDisplayer msg;
         call_do_something_pod CppExampleDisplayer pod1 store1;
         call_display_message CppExampleDisplayer msg;
         call_do_something_pod CppExampleDisplayer pod2 store2].
Proof.
  split; [reflexivity|]. split; [reflexivity|].
  apply (run_demo_one_producer_two_native cpp_producer
           Fixture.one_producer_two_displayers); reflexivity.
Defined.

Lemma CppExampleDisplayer_do_something_pod_prints_witness :
  data Fixture.buffer_pod = Some 0 /\
  heap Fixture.with_buffer !! 0 = Some (PtrArray [Some 1]) /\
  [Some 1] !! 0 = Some (Some 1) /\
  heap Fixture.with_buffer !! 1 = Some (FloatArray [Some float_101]) /\
  [Some float_101] !! 0 = Some (Some float_101) /\
  CppExampleDisplayer_do_something_pod Fixture.buffer_pod Fixture.with_buffer
  = Some (Fixture.buffer_pod,
          with_cout Fixture.with_buffer
            (cout Fixture.with_buffer +:+ "From C++: "
               +:+ print_float float_101 +:+ newline)).
Proof.
  repeat (split; [reflexivity|]).
  apply (CppExampleDisplayer_do_something_pod_prints
           Fixture.buffer_pod Fixture.with_buffer 0 1
           [Some 1] [Some float_101] float_101); reflexivity.
Defined.

Lemma CppExampleDisplayer_do_something_pod_frame_witness :
  CppExampleDisplayer_do_something_pod Fixture.buffer_pod Fixture.with_buffer
  = Some (Fixture.buffer_pod,
          with_cout Fixture.with_buffer ("From C++: 101" +:+ newline)) /\
  heap (with_cout Fixture.with_buffer ("From C++: 101" +:+ newline))
  = heap Fixture.with_buffer.
Proof.
  split; [reflexivity|].
  apply (CppExampleDisplayer_do_something_pod_frame
           Fixture.buffer_pod Fixture.buffer_pod Fixture.with_buffer
           (with_cout Fixture.with_buffer ("From C++: 101" +:+ newline))).
  reflexivity.
Defined.

Lemma run_demo_no_producer_witness :
  producers Fixture.no_producer = [] /\
  run_demo Fixture.no_producer = Some (tt, Fixture.no_producer) /\
  cout (exec run_demo Fixture.no_producer) = cout Fixture.no_producer.
Proof.
  split; [reflexivity|].
  apply (run_demo_no_producer Fixture.no_producer). reflexivity.
Defined.

Lemma run_demo_no_displayer_witness :
  producers Fixture.no_displayer <> [] /\
  displayers Fixture.no_displayer = [] /\
  exists msgs s',
    run_demo Fixture.no_displayer = Some (tt, s') /\
    cout s' = cout Fixture.no_displayer
              +:+ newlines (length (producers Fixture.no_displayer)) /\
    newlines (length (producers Fixture.no_displayer)) <> "" /\
    lines (newlines (length (producers Fixture.no_displayer)))
      = replicate (length (producers Fixture.no_displayer)) "" /\
    length msgs = length (producers Fixture.no_displayer) /\
    calls s' = calls Fixture.no_displayer
               ++ zip_with call_get_message (producers Fixture.no_displayer) msgs.
Proof.
  split; [discriminate|]. split; [reflexivity|].
  apply (run_demo_no_displayer Fixture.no_displayer);
    [discriminate | reflexivity].
Defined.

End Runs.

(** * Further properties *)

(** ** The native displayer on records without a buffer *)
Section NativeDisplayerEdges.
Context `{Platform}.

(** X1: the native [do_something_pod] is defined exactly when the record's
    buffer has a cell at row 0, column 0 holding a value, and then prints
    that value; on any other record (no buffer address, no row, a null row,
    no column, an indeterminate cell) the behaviour is undefined. In
    particular it is undefined on a record that was only default-initialised. *)
Theorem CppExampleDisplayer_do_something_pod_defined (pod : MyPod) (s : State) :
  CppExampleDisplayer_do_something_pod pod s
  = match buffer_cell_00 (heap s) pod with
    | Some v =>
        Some (pod, with_cout s (cout s +:+ "From C++: " +:+ print_float v +:+ newline))
    | None => None
    end /\
  CppExampleDisplayer_do_something_pod MyPod_default s = None.
Proof.
  split; [|reflexivity].
  unfold CppExampleDisplayer_do_something_pod, buffer_cell_00, bind,
    load_ptr, load_float.
  destruct (data pod) as [a|]; [|reflexivity].
  destruct (heap s !! a) as [[rows|]|]; try reflexivity.
  destruct rows as [|[b|] rows]; try reflexivity. cbn.
  destruct (heap s !! b) as [[|cols]|]; try reflexivity.
  destruct cols as [|[v|] cols]; try reflexivity. cbn.
  rewrite !append_assoc. reflexivity.
Qed.

End NativeDisplayerEdges.

(** ** Runs with native displayers only *)
Section NativeRuns.
Context `{Platform}.

Local Abbreviation displayer_body msg :=
  (fun displayer =>
     run display_message displayer msg;
     let pod := MyPod_default in
     let pod := set_foo pod 1 in
     do a <- new_ptr_array 1;
     let pod := set_data pod a in
     do b <- new_float_array 1;
     run store_ptr (data pod) 0 b;
     do row <- load_ptr (data pod) 0;
     run store_float row 0 float_101;
     run do_something_pod displayer pod;
     cout_endl).

Local Abbreviation producer_body :=
  (fun producer =>
    do msg <- get_message producer;
    do ds <- gets displayers;
    run for_each ds (displayer_body msg);
    cout_endl).

Lemma leaked_blocks_app (base a b : nat) :
  leaked_blocks base (a + b)
  = leaked_blocks base a ++ leaked_blocks (base + 2 * a) b.
Proof.
  revert base. induction a as [|a IH]; intros base.
  - cbn. rewrite Nat.add_0_r. reflexivity.
  - cbn [Nat.add leaked_blocks app]. rewrite IH.
    replace (S (S base) + 2 * a) with (base + 2 * S a) by lia. reflexivity.
Qed.

Lemma leaked_blocks_length (base count : nat) :
  length (leaked_blocks base count) = 2 * count.
Proof.
  revert base. induction count as [|c IH]; intros base; [reflexivity|].
  cbn [leaked_blocks length]. rewrite IH. lia.
Qed.

Lemma get_message_exact (p : MessageProducer) (s : State) :
  get_message p s
  = Some ((producer_message p (env s)).1,
          with_calls (with_env s (producer_message p (env s)).2)
            (calls s ++ [call_get_message p (producer_message p (env s)).1])).
Proof.
  unfold get_message, producer_message, bind, record_call, ret.
  destruct p as [|impl].
  - destruct (CppExampleProducer_get_message (env s)). reflexivity.
  - destruct (fp_get_message impl (env s)). reflexivity.
Qed.

Lemma native_loop_run (msg : string) (k : nat) (s : State) :
  exists s',
    for_each (replicate k CppExampleDisplayer) (displayer_body msg) s
    = Some (tt, s') /\
    producers s' = producers s /\ displayers s' = displayers s /\
    env s' = env s /\
    heap s' = heap s ++ leaked_blocks (length (heap s)) k /\
    cout s' = cout s +:+ repeat_text k (native_block msg).
Proof.
  revert s. induction k as [|k IH]; intros s.
  - exists s. cbn. rewrite app_nil_r, append_nil_r. repeat split.
  - destruct (displayer_body_native msg s)
      as (s1 & Hrun & Hp & Hd & He & Hh & Ho & _).
    destruct (IH s1) as (s' & Hloop & Hp' & Hd' & He' & Hh' & Ho').
    exists s'. split.
    { cbn [replicate for_each]. unfold bind at 1.
      cbv beta zeta in Hrun |- *. rewrite Hrun. exact Hloop. }
    repeat split; try congruence.
    + rewrite Hh', Hh, length_app, <- app_assoc. cbn.
      replace (length (heap s) + 2) with (S (S (length (heap s)))) by lia.
      reflexivity.
    + rewrite Ho', Ho. unfold native_block. cbn [repeat_text].
      rewrite !append_assoc. reflexivity.
Qed.

Lemma native_demo_run (ps : list MessageProducer) (k : nat) (s : State) :
  displayers s = replicate k CppExampleDisplayer ->
  exists s',
    for_each ps producer_body s = Some (tt, s') /\
    producers s' = producers s /\ displayers s' = displayers s /\
    env s' = (messages_of ps (env s)).2 /\
    heap s' = heap s ++ leaked_blocks (length (heap s)) (length ps * k) /\
    cout s' = cout s +:+ native_demo_output k (messages_of ps (env s)).1.
Proof.
  revert s. induction ps as [|p ps IH]; intros s Hds.
  - exists s. cbn. rewrite app_nil_r, append_nil_r. repeat split.
  - pose proof (get_message_exact p s) as Hget.
    destruct (producer_message p (env s)) as [m e1] eqn:Hm. cbn [fst snd] in Hget.
    set (s1 := with_calls (with_env s e1) (calls s ++ [call_get_message p m])) in *.
    assert (Hd1 : displayers s1 = displayers s) by reflexivity.
    assert (Hp1 : producers s1 = producers s) by reflexivity.
    assert (Hh1 : heap s1 = heap s) by reflexivity.
    assert (Ho1 : cout s1 = cout s) by reflexivity.
    assert (He1 : env s1 = e1) by reflexivity.
    destruct (native_loop_run m k s1) as (s2 & Hin & Hp2 & Hd2 & He2 & Hh2 & Ho2).
    destruct (IH (with_cout s2 (cout s2 +:+ newline)))
      as (s' & Hrest & Hp' & Hd' & He' & Hh' & Ho'); [cbn; congruence|].
    cbn in Hp', Hd', He', Hh', Ho'.
    exists s'. split.
    { cbn [for_each]. unfold bind at 1. unfold bind at 1. rewrite Hget.
      unfold bind at 1. unfold gets. rewrite Hd1, Hds.
      unfold bind at 1. cbv beta zeta in Hin |- *. rewrite Hin.
      unfold cout_endl, cout_put. exact Hrest. }
    cbn [messages_of]. rewrite Hm.
    rewrite He2, He1 in He', Ho'.
    destruct (messages_of ps e1) as [ms e2] eqn:Hms. cbn [fst snd] in *.
    repeat split; try congruence.
    + rewrite Hh', Hh2, Hh1, length_app, leaked_blocks_length, <- app_assoc.
      cbn [length Nat.mul].
      rewrite (leaked_blocks_app (length (heap s)) k (length ps * k)).
      reflexivity.
    + rewrite Ho', Ho2, Ho1. cbn [native_demo_output].
      rewrite !append_assoc. reflexivity.
Qed.

(** X2: with only native displayers registered ([k] of them), [run_demo]
    prints, for each producer in registration order, [k] times the block
    "Message: " message, "From C++: " 101, empty line, and then one more
    empty line. The messages, and the environment left behind, are those the
    producers give when asked one after the other: native displayers do not
    touch the environment. *)
Theorem run_demo_native_displayers_output (k : nat) (s : State) :
  displayers s = replicate k CppExampleDisplayer ->
  exists s',
    run_demo s = Some (tt, s') /\
    cout s' = cout s
              +:+ native_demo_output k (messages_of (producers s) (env s)).1 /\
    env s' = (messages_of (producers s) (env s)).2.
Proof.
  intros Hds. rewrite run_demo_unfold.
  destruct (native_demo_run (producers s) k s Hds)
    as (s' & Hrun & _ & _ & He & _ & Ho).
  exists s'. auto.
Qed.

(** X3: with only native displayers registered ([k] of them), each run adds
    two arrays per producer and displayer to the free store and releases
    none: the store after the run is the store before followed by the
    2 * producers * k new blocks, so every block that existed is still there
    unchanged. *)
Theorem run_demo_native_displayers_leak (k : nat) (s : State) :
  displayers s = replicate k CppExampleDisplayer ->
  exists s',
    run_demo s = Some (tt, s') /\
    heap s' = heap s
              ++ leaked_blocks (length (heap s)) (length (producers s) * k) /\
    length (heap s') = length (heap s) + 2 * (length (producers s) * k) /\
    forall a blk, heap s !! a = Some blk -> heap s' !! a = Some blk.
Proof.
  intros Hds. rewrite run_demo_unfold.
  destruct (native_demo_run (producers s) k s Hds)
    as (s' & Hrun & _ & _ & _ & Hh & _).
  exists s'. repeat split; try assumption.
  - rewrite Hh, length_app, leaked_blocks_length. reflexivity.
  - intros a blk Ha. rewrite Hh. apply lookup_app_l_Some. exact Ha.
Qed.

Lemma CppExampleProducer_get_message_exact (e : Env) :
  CppExampleProducer_get_message e
  = (native_message (clock e (ticks e)),
     {| clock := clock e; ticks := S (ticks e); ext := ext e |}).
Proof.
  unfold CppExampleProducer_get_message, std_time, native_message.
  destruct (asctime_localtime (clock e (ticks e))) as [text|]; [|reflexivity].
  cbn. rewrite !append_assoc. reflexivity.
Qed.

Lemma messages_of_native (n : nat) (e : Env) :
  messages_of (replicate n CppExampleProducer) e
  = (map (fun i => native_message (clock e (ticks e + i))) (seq 0 n),
     {| clock := clock e; ticks := ticks e + n; ext := ext e |}).
Proof.
  revert e. induction n as [|n IH]; intros e.
  - cbn. rewrite Nat.add_0_r. destruct e; reflexivity.
  - cbn [replicate messages_of producer_message].
    rewrite CppExampleProducer_get_message_exact, IH.
    cbn [clock ticks ext seq map]. rewrite Nat.add_0_r.
    rewrite <- seq_shift, map_map. f_equal.
    + f_equal. apply map_ext. intros i. rewrite Nat.add_succ_r. reflexivity.
    + rewrite Nat.add_succ_r. reflexivity.
Qed.

(** X4: when everything registered is native ([n] times the native producer,
    [k] times the native displayer), a run is determined by the clock: the
    [i]-th message is the native message for the [i]-th next reading, so the
    clock is read once per producer, not once per displayer, and nothing else
    of the environment changes. *)
Theorem run_demo_all_native (n k : nat) (s : State) :
  producers s = replicate n CppExampleProducer ->
  displayers s = replicate k CppExampleDisplayer ->
  exists s',
    run_demo s = Some (tt, s') /\
    cout s' = cout s +:+ native_demo_output k
                (map (fun i => native_message (clock (env s) (ticks (env s) + i)))
                     (seq 0 n)) /\
    ticks (env s') = ticks (env s) + n /\
    clock (env s') = clock (env s) /\
    ext (env s') = ext (env s).
Proof.
  intros Hps Hds. rewrite run_demo_unfold.
  destruct (native_demo_run (producers s) k s Hds)
    as (s' & Hrun & _ & _ & He & _ & Ho).
  rewrite Hps, messages_of_native in He, Ho. cbn [fst snd] in He, Ho.
  exists s'. split; [exact Hrun|]. split; [exact Ho|].
  rewrite He. repeat split.
Qed.

End NativeRuns.

(** ** Clients: sequences of calls of the four functions *)
Section Clients.
Context `{Platform}.

Lemma for_each_app {A} (l1 l2 : list A) (body : A -> M unit) (s : State) :
  for_each (l1 ++ l2) body s
  = (run for_each l1 body; for_each l2 body) s.
Proof.
  revert s. induction l1 as [|x l1 IH]; intros s; [reflexivity|].
  cbn [app for_each]. unfold bind.
  destruct (body x s) as [[[] s1]|]; [|reflexivity].
  rewrite IH. reflexivity.
Qed.

Lemma perform_registries (o : operation) (s : State) :
  exists s',
    perform o s = Some (tt, s') /\
    producers s' = producers s ++ registered_producers [o] /\
    displayers s' = displayers s ++ registered_displayers [o].
Proof.
  destruct o as [|p|d|]; cbn [perform].
  - eexists. split; [reflexivity|]. split; reflexivity.
  - eexists. split; [reflexivity|]. cbn. rewrite app_nil_r. split; reflexivity.
  - eexists. split; [reflexivity|]. cbn. rewrite app_nil_r. split; reflexivity.
  - rewrite run_demo_unfold.
    destruct (producer_loop_run (producers s) s) as (tr & s' & Hrun & Hp & Hd & _).
    exists s'. cbn. rewrite !app_nil_r. auto.
Qed.

Lemma registered_producers_cons (o : operation) (ops : list operation) :
  registered_producers (o :: ops)
  = registered_producers [o] ++ registered_producers ops.
Proof. unfold registered_producers. cbn. rewrite app_nil_r. reflexivity. Qed.

Lemma registered_displayers_cons (o : operation) (ops : list operation) :
  registered_displayers (o :: ops)
  = registered_displayers [o] ++ registered_displayers ops.
Proof. unfold registered_displayers. cbn. rewrite app_nil_r. reflexivity. Qed.

(** X6: after any sequence of calls of the four functions, each registry is
    what it was followed by what the sequence registered, in call order:
    registrations of producers and of displayers do not disturb each other,
    the same object registered twice is there twice, and runs of the demo in
    between change nothing. *)
Theorem client_registries (ops : list operation) (s : State) :
  exists s',
    for_each ops perform s = Some (tt, s') /\
    producers s' = producers s ++ registered_producers ops /\
    displayers s' = displayers s ++ registered_displayers ops.
Proof.
  revert s. induction ops as [|o ops IH]; intros s.
  - exists s. cbn. rewrite !app_nil_r. auto.
  - destruct (perform_registries o s) as (s1 & Hrun & Hp & Hd).
    destruct (IH s1) as (s' & Hrest & Hp' & Hd').
    exists s'. split.
    { cbn [for_each]. unfold bind. rewrite Hrun. exact Hrest. }
    rewrite registered_producers_cons, registered_displayers_cons.
    rewrite Hp', Hd', Hp, Hd, <- !app_assoc. auto.
Qed.

Lemma registrations_exact (ops : list operation) (s : State) :
  forallb is_registration ops = true ->
  for_each ops perform s
  = Some (tt, with_displayers
                (with_producers s (producers s ++ registered_producers ops))
                (displayers s ++ registered_displayers ops)).
Proof.
  revert s. induction ops as [|o ops IH]; intros s Hops.
  - cbn. rewrite !app_nil_r. destruct s; reflexivity.
  - cbn in Hops. apply andb_prop in Hops as [Ho Hops].
    cbn [for_each]. unfold bind.
    rewrite registered_producers_cons, registered_displayers_cons.
    destruct o as [|p|d|]; try discriminate; cbn [perform];
      unfold register_cpp_thingies, register_producer, register_displayer, bind;
      rewrite (IH _ Hops); cbn; rewrite <- ?app_assoc, ?app_nil_r; reflexivity.
Qed.

(** X7: a client that only registers has no other effect: nothing is
    printed, nothing is allocated, the clock is not read and no virtual
    method is called. Registration keeps references and does not use them. *)
Theorem registrations_are_silent (ops : list operation) (s : State) :
  forallb is_registration ops = true ->
  exists s',
    for_each ops perform s = Some (tt, s') /\
    cout s' = cout s /\ heap s' = heap s /\
    env s' = env s /\ calls s' = calls s.
Proof.
  intros Hops. eexists. split; [apply registrations_exact; exact Hops|].
  repeat split.
Qed.

Lemma registered_replicate_cpp (k : nat) :
  registered_producers (replicate k op_register_cpp_thingies)
  = replicate k cpp_producer /\
  registered_displayers (replicate k op_register_cpp_thingies)
  = replicate k cpp_displayer.
Proof.
  induction k as [|k [IHp IHd]]; [split; reflexivity|].
  cbn [replicate]. rewrite registered_producers_cons, registered_displayers_cons.
  rewrite IHp, IHd. split; reflexivity.
Qed.

Lemma forallb_replicate_registration (k : nat) :
  forallb is_registration (replicate k op_register_cpp_thingies) = true.
Proof. induction k as [|k IH]; [reflexivity|exact IH]. Qed.

(** X5: the program that calls [register_cpp_thingies] [k] times and then
    [run_demo], started with empty registries. Nothing is deduplicated, so
    there are [k] producers and [k] displayers, and the run prints [k] times
    [k] blocks, one message per reading of the clock, makes k * (1 + 2 * k)
    virtual calls and leaves 2 * k * k arrays in the store. *)
Theorem cpp_only_program (k : nat) (e : Env) :
  exists s',
    for_each (replicate k op_register_cpp_thingies ++ [op_run_demo]) perform
      (initial_state e)
    = Some (tt, s') /\
    producers s' = replicate k cpp_producer /\
    displayers s' = replicate k cpp_displayer /\
    cout s' = native_demo_output k
                (map (fun i => native_message (clock e (ticks e + i))) (seq 0 k)) /\
    length (heap s') = 2 * (k * k) /\
    length (calls s') = k * (1 + 2 * k).
Proof.
  destruct (registered_replicate_cpp k) as [Hrp Hrd].
  pose proof (registrations_exact _ (initial_state e)
                (forallb_replicate_registration k)) as Hreg.
  rewrite Hrp, Hrd in Hreg. cbn [producers displayers initial_state app] in Hreg.
  set (s0 := with_displayers
               (with_producers (initial_state e) (replicate k cpp_producer))
               (replicate k cpp_displayer)) in *.
  assert (Hds : displayers s0 = replicate k CppExampleDisplayer) by reflexivity.
  assert (Hps : producers s0 = replicate k CppExampleProducer) by reflexivity.
  destruct (native_demo_run (producers s0) k s0 Hds)
    as (s' & Hrun & Hp & Hd & He & Hh & Ho).
  destruct (producer_loop_run (producers s0) s0)
    as (tr & s'' & Hrun' & _ & _ & Hc & Hdemo & _).
  rewrite Hrun in Hrun'. injection Hrun' as <-.
  exists s'. split.
  { rewrite for_each_app. unfold bind at 1. rewrite Hreg.
    cbn [for_each perform]. unfold bind at 1. rewrite run_demo_unfold, Hrun.
    reflexivity. }
  split; [rewrite Hp; exact Hps|]. split; [rewrite Hd; exact Hds|].
  split; [|split].
  - rewrite Ho, Hps, messages_of_native. reflexivity.
  - rewrite Hh, length_app, leaked_blocks_length, Hps, length_replicate.
    reflexivity.
  - rewrite Hc, length_app, (demo_calls_length _ _ _ Hdemo), Hds, Hps.
    rewrite !length_replicate. reflexivity.
Qed.

End Clients.

(** ** The line terminators of the driver *)
Section Framing.
Context `{Platform}.

Local Abbreviation displayer_body msg :=
  (fun displayer =>
     run display_message displayer msg;
     let pod := MyPod_default in
     let pod := set_foo pod 1 in
     do a <- new_ptr_array 1;
     let pod := set_data pod a in
     do b <- new_float_array 1;
     run store_ptr (data pod) 0 b;
     do row <- load_ptr (data pod) 0;
     run store_float row 0 float_101;
     run do_something_pod displayer pod;
     cout_endl).

Local Abbreviation producer_body :=
  (fun producer =>
    do msg <- get_message producer;
    do ds <- gets displayers;
    run for_each ds (displayer_body msg);
    cout_endl).

Lemma displayer_body_text (d : MessageDisplayer) (msg : string) (s : State) :
  exists s',
    displayer_body msg d s = Some (tt, s') /\
    producers s' = producers s /\ displayers s' = displayers s /\
    cout s' = cout s +:+ (displayer_text d msg (heap s) (env s)).1.1 +:+ newline /\
    heap s' = (displayer_text d msg (heap s) (env s)).1.2 /\
    env s' = (displayer_text d msg (heap s) (env s)).2.
Proof.
  destruct d as [|impl].
  - destruct (displayer_body_native msg s)
      as (s' & Hrun & Hp & Hd & He & Hh & Ho & _).
    exists s'. cbn [displayer_text fst snd]. repeat split; try assumption.
    rewrite Ho, !append_assoc. reflexivity.
  - cbn [displayer_text].
    destruct (fd_display_message impl msg (env s)) as [out e] eqn:Hdisp.
    destruct (fd_do_something_pod impl (demo_pod (heap s))
                (heap s ++ demo_blocks (heap s)) e)
      as [[[out' pod'] h'] e'] eqn:Hpod.
    eexists. split.
    { rewrite displayer_body_make_pod.
      unfold bind at 1. unfold display_message, record_call, bind at 1.
      cbn [env with_calls]. rewrite Hdisp.
      unfold bind at 1. rewrite make_pod_spec.
      unfold bind at 1. unfold do_something_pod, record_call, gets, bind at 1.
      cbn. rewrite Hpod. reflexivity. }
    cbn. rewrite !append_assoc. repeat split.
Qed.

Lemma displayer_loop_text (msg : string) (ds : list MessageDisplayer) (s : State) :
  exists s',
    for_each ds (displayer_body msg) s = Some (tt, s') /\
    producers s' = producers s /\ displayers s' = displayers s /\
    cout s' +:+ newline
    = cout s +:+ frame_row (row_texts msg ds (heap s) (env s)).1.1 /\
    heap s' = (row_texts msg ds (heap s) (env s)).1.2 /\
    env s' = (row_texts msg ds (heap s) (env s)).2.
Proof.
  revert s. induction ds as [|d ds IH]; intros s.
  - exists s. repeat split.
  - destruct (displayer_body_text d msg s)
      as (s1 & Hrun & Hp & Hd & Ho & Hh & He).
    destruct (IH s1) as (s' & Hloop & Hp' & Hd' & Ho' & Hh' & He').
    exists s'. split.
    { cbn [for_each]. unfold bind at 1.
      cbv beta zeta in Hrun |- *. rewrite Hrun. exact Hloop. }
    cbn [row_texts].
    destruct (displayer_text d msg (heap s) (env s)) as [[text h1] e1].
    cbn [fst snd] in Ho, Hh, He. rewrite Hh, He in Ho', Hh', He'.
    destruct (row_texts msg ds h1 e1) as [[row h2] e2].
    cbn [fst snd] in *.
    repeat split; try congruence.
    rewrite Ho', Ho. cbn [frame_row foldr]. rewrite !append_assoc. reflexivity.
Qed.

Lemma row_texts_length (msg : string) (ds : list MessageDisplayer)
    (h : Heap) (e : Env) :
  length (row_texts msg ds h e).1.1 = length ds.
Proof.
  revert h e. induction ds as [|d ds IH]; intros h e; [reflexivity|].
  cbn [row_texts]. destruct (displayer_text d msg h e) as [[text h1] e1].
  specialize (IH h1 e1). destruct (row_texts msg ds h1 e1) as [[row h2] e2].
  cbn in *. congruence.
Qed.

Lemma demo_texts_length (ps : list MessageProducer) (ds : list MessageDisplayer)
    (h : Heap) (e : Env) :
  length (demo_texts ps ds h e).1.1 = length ps /\
  Forall (fun row => length row = length ds) (demo_texts ps ds h e).1.1.
Proof.
  revert h e. induction ps as [|p ps IH]; intros h e.
  - split; [reflexivity|constructor].
  - cbn [demo_texts]. destruct (producer_message p e) as [msg e1].
    pose proof (row_texts_length msg ds h e1) as Hrow.
    destruct (row_texts msg ds h e1) as [[row h1] e2].
    specialize (IH h1 e2). destruct (demo_texts ps ds h1 e2) as [[rows h2] e3].
    cbn in *. destruct IH as [IHl IHf]. split; [congruence|].
    constructor; assumption.
Qed.

Lemma producer_loop_text (ps : list MessageProducer) (s : State) :
  exists s',
    for_each ps producer_body s = Some (tt, s') /\
    displayers s' = displayers s /\
    cout s' = cout s
      +:+ frame_rows (demo_texts ps (displayers s) (heap s) (env s)).1.1 /\
    heap s' = (demo_texts ps (displayers s) (heap s) (env s)).1.2 /\
    env s' = (demo_texts ps (displayers s) (heap s) (env s)).2.
Proof.
  revert s. induction ps as [|p ps IH]; intros s.
  - exists s. cbn. rewrite append_nil_r. repeat split.
  - pose proof (get_message_exact p s) as Hget.
    cbn [demo_texts].
    destruct (producer_message p (env s)) as [msg e1]. cbn [fst snd] in Hget.
    set (s1 := with_calls (with_env s e1) (calls s ++ [call_get_message p msg])) in *.
    assert (Hd1 : displayers s1 = displayers s) by reflexivity.
    assert (Hh1 : heap s1 = heap s) by reflexivity.
    assert (Ho1 : cout s1 = cout s) by reflexivity.
    assert (He1 : env s1 = e1) by reflexivity.
    destruct (displayer_loop_text msg (displayers s1) s1)
      as (s2 & Hin & _ & Hd2 & Ho2 & Hh2 & He2).
    rewrite Hd1, Hh1, He1 in Ho2, Hh2, He2.
    destruct (IH (with_cout s2 (cout s2 +:+ newline)))
      as (s' & Hrest & Hd' & Ho' & Hh' & He').
    cbn [displayers heap env cout with_cout] in Hd', Ho', Hh', He'.
    rewrite Hd2, Hd1, Hh2, He2 in Ho', Hh', He'.
    destruct (row_texts msg (displayers s) (heap s) e1) as [[row h1] e2].
    cbn [fst snd] in *.
    destruct (demo_texts ps (displayers s) h1 e2) as [[rows h2] e3].
    cbn [fst snd] in *.
    exists s'. split.
    { cbn [for_each]. unfold bind at 1. unfold bind at 1. rewrite Hget.
      unfold bind at 1. unfold gets. unfold bind at 1.
      cbv beta zeta in Hin |- *. rewrite Hin.
      unfold cout_endl, cout_put. exact Hrest. }
    repeat split; try congruence.
    rewrite Ho', Ho2, Ho1. cbn [frame_rows foldr].
    rewrite append_assoc. reflexivity.
Qed.

(** X8: for any registered producers and displayers, native or not, the
    output, store and environment after [run_demo] are those of asking each
    producer in turn for its message and letting each displayer in turn print
    its text for it: the output grows by these texts, with exactly one line
    terminator from the driver after each displayer's text and one more after
    the displayers of each producer. There is one row of texts per producer
    and one text per displayer in each row. *)
Theorem run_demo_frames_output (s : State) :
  exists s',
    run_demo s = Some (tt, s') /\
    cout s' = cout s
      +:+ frame_rows
            (demo_texts (producers s) (displayers s) (heap s) (env s)).1.1 /\
    heap s' = (demo_texts (producers s) (displayers s) (heap s) (env s)).1.2 /\
    env s' = (demo_texts (producers s) (displayers s) (heap s) (env s)).2 /\
    length (demo_texts (producers s) (displayers s) (heap s) (env s)).1.1
    = length (producers s) /\
    Forall (fun row => length row = length (displayers s))
      (demo_texts (producers s) (displayers s) (heap s) (env s)).1.1.
Proof.
  rewrite run_demo_unfold.
  destruct (producer_loop_text (producers s) s)
    as (s' & Hrun & _ & Ho & Hh & He).
  exists s'. repeat split; try assumption;
    apply (demo_texts_length (producers s) (displayers s) (heap s) (env s)).
Qed.

End Framing.

(** ** The further properties at work *)
Section MoreRuns.
#[local] Existing Instance Fixture.platform.

Lemma run_demo_native_displayers_output_witness :
  displayers Fixture.quote_two_displayers = replicate 2 CppExampleDisplayer /\
  exists s',
    run_demo Fixture.quote_two_displayers = Some (tt, s') /\
    cout s' = cout Fixture.quote_two_displayers
              +:+ native_demo_output 2
                    (messages_of (producers Fixture.quote_two_displayers)
                       (env Fixture.quote_two_displayers)).1 /\
    env s' = (messages_of (producers Fixture.quote_two_displayers)
                (env Fixture.quote_two_displayers)).2.
Proof.
  split; [reflexivity|].
  apply (run_demo_native_displayers_output 2 Fixture.quote_two_displayers).
  reflexivity.
Defined.

Lemma run_demo_native_displayers_leak_witness :
  displayers Fixture.quote_two_displayers = replicate 2 CppExampleDisplayer /\
  exists s',
    run_demo Fixture.quote_two_displayers = Some (tt, s') /\
    heap s' = heap Fixture.quote_two_displayers
              ++ leaked_blocks (length (heap Fixture.quote_two_displayers))
                   (length (producers Fixture.quote_two_displayers) * 2) /\
    length (heap s')
    = length (heap Fixture.quote_two_displayers)
      + 2 * (length (producers Fixture.quote_two_displayers) * 2) /\
    forall a blk,
      heap Fixture.quote_two_displayers !! a = Some blk ->
      heap s' !! a = Some blk.
Proof.
  split; [reflexivity|].
  apply (run_demo_native_displayers_leak 2 Fixture.quote_two_displayers).
  reflexivity.
Defined.

Lemma run_demo_all_native_witness :
  producers Fixture.one_producer_two_displayers = replicate 1 CppExampleProducer /\
  displayers Fixture.one_producer_two_displayers = replicate 2 CppExampleDisplayer /\
  exists s',
    run_demo Fixture.one_producer_two_displayers = Some (tt, s') /\
    cout s' = cout Fixture.one_producer_two_displayers
              +:+ native_demo_output 2
                    (map (fun i =>
                            native_message
                              (clock (env Fixture.one_producer_two_displayers)
                                 (ticks (env Fixture.one_producer_two_displayers) + i)))
                         (seq 0 1)) /\
    ticks (env s') = ticks (env Fixture.one_producer_two_displayers) + 1 /\
    clock (env s') = clock (env Fixture.one_producer_two_displayers) /\
    ext (env s') = ext (env Fixture.one_producer_two_displayers).
Proof.
  split; [reflexivity|]. split; [reflexivity|].
  apply (run_demo_all_native 1 2 Fixture.one_producer_two_displayers);
    reflexivity.
Defined.

Lemma registrations_are_silent_witness :
  forallb is_registration
    [op_register_cpp_thingies;
     op_register_producer Fixture.quote_producer;
     op_register_displayer Fixture.bracket_displayer] = true /\
  exists s',
    for_each
      [op_register_cpp_thingies;
       op_register_producer Fixture.quote_producer;
       op_register_displayer Fixture.bracket_displayer] perform Fixture.start
    = Some (tt, s') /\
    cout s' = cout Fixture.start /\ heap s' = heap Fixture.start /\
    env s' = env Fixture.start /\ calls s' = calls Fixture.start.
Proof.
  split; [reflexivity|].
  apply (registrations_are_silent
           [op_register_cpp_thingies;
            op_register_producer Fixture.quote_producer;
            op_register_displayer Fixture.bracket_displayer] Fixture.start).
  reflexivity.
Defined.

End MoreRuns.

(** ** The native producer at work, and where its message is not as
    specified *)
Section ProducerRuns.

Lemma CppExampleProducer_get_message_contents_witness :
  @asctime_localtime Fixture.platform
    (clock (env Fixture.start) (ticks (env Fixture.start)))
  = Some ("Thu Jan  1 00:00:00 1970" +:+ newline) /\
  (0 <= clock (env Fixture.start) (ticks (env Fixture.start)))%Z /\
  (@CppExampleProducer_get_message Fixture.platform (env Fixture.start)).1
  = ("Thu Jan  1 00:00:00 1970" +:+ newline)
    +:+ print_time_t (clock (env Fixture.start) (ticks (env Fixture.start)))
    +:+ " seconds since the Epoch" /\
  message_as_claimed (clock (env Fixture.start) (ticks (env Fixture.start)))
    (@CppExampleProducer_get_message Fixture.platform (env Fixture.start)).1 /\
  parse_nonneg (print_time_t (clock (env Fixture.start) (ticks (env Fixture.start))))
  = Some (Z.to_N (clock (env Fixture.start) (ticks (env Fixture.start)))).
Proof.
  split; [reflexivity|]. split; [cbn; lia|].
  apply (@CppExampleProducer_get_message_contents Fixture.platform
           (env Fixture.start) ("Thu Jan  1 00:00:00 1970" +:+ newline));
    [reflexivity | cbn; lia].
Defined.

(** When [std::time] fails the count is -1, and the message says so. *)
Example message_when_time_failed :
  (@CppExampleProducer_get_message Failure.platform_time_failed
     Failure.env_time_failed).1
  = "Wed Dec 31 23:59:59 1969" +:+ newline +:+ "-1 seconds since the Epoch".
Proof. reflexivity. Qed.

(** When there is no calendar text the message is empty. *)
Example message_when_no_calendar :
  (@CppExampleProducer_get_message Failure.platform_no_calendar
     Failure.env_no_calendar).1
  = "".
Proof. reflexivity. Qed.

(** C6 as specified fails in both cases: at the reading -1 the count printed
    is "-1", which does not read as a non-negative integer; with no calendar
    text the message is empty and does not contain "seconds since the
    Epoch". *)
Lemma CppExampleProducer_get_message_not_as_claimed :
  ~ message_as_claimed (-1)
      (@CppExampleProducer_get_message Failure.platform_time_failed
         Failure.env_time_failed).1 /\
  ~ message_as_claimed (2 ^ 62)
      (@CppExampleProducer_get_message Failure.platform_no_calendar
         Failure.env_no_calendar).1.
Proof.
  split.
  - intros (_ & _ & n & Hn). vm_compute in Hn. discriminate.
  - intros ((before & after & Hocc) & _).
    rewrite message_when_no_calendar in Hocc.
    destruct before; discriminate.
Qed.

End ProducerRuns.
